(** * AgmMarkerCluster: the marker-cluster directive of js-marker-clusterer

    Shallow embedding of
    [src/packages/js-marker-clusterer/directives/marker-cluster.ts].

    The directive is an adapter between a host framework (which sets input
    properties and calls the lifecycle hooks) and a cluster manager (an
    external collaborator).  Its methods are embedded as computations in a
    state-and-exception monad over a [World]: the directive's own fields,
    the info-window objects it can reach, the subscription objects it has
    created, and an ordered log of every call it makes on a collaborator. *)

From Stdlib Require Import PrimFloat.
From stdpp Require Import gmap strings list.

(** ** Values that cross the directive *)

(** A TypeScript [number] is an IEEE 754 double. *)
Definition number : Type := float.

(** [ClusterStyle] is declared in google-clusterer-types; the directive only
    passes the object along, so a style is the reference to it. *)
Inductive ClusterStyle := StyleObject (ref : nat).

(** The [ClusterOptions] interface, which the directive implements.  An
    [@Input()] field without initialiser is [undefined] ([None]) until the
    host writes it. *)
Record ClusterOptions := {
  gridSize : option number;
  maxZoom : option number;
  zoomOnClick : option bool;
  averageCenter : option bool;
  minimumClusterSize : option number;
  styles : option ClusterStyle;
  imagePath : option string;
  imageExtension : option string
}.

(** Values of type [any], as they appear inside a [SimpleChange]. *)
Inductive any :=
| undefined
| anyNumber (n : number)
| anyBoolean (b : bool)
| anyString (s : string)
| anyStyle (s : ClusterStyle).

Record SimpleChange := {
  previousValue : any;
  currentValue : any;
  firstChange : bool
}.

(** The geometry the clustering library exposes: [lat()], [lng()],
    [getNorthEast()], [getSouthWest()], [getCenter()], [getBounds()] and
    [getMarkers()] are getters, read once per use. *)
Record LatLng := { lat : number; lng : number }.
Record LatLngBounds := { getNorthEast : LatLng; getSouthWest : LatLng }.

(** A marker has more properties than its title; the click handler reads
    [title] only. *)
Record Marker := {
  title : option string;
  label : option string;
  getPosition : LatLng
}.

Record Cluster := {
  getCenter : LatLng;
  getBounds : LatLngBounds;
  getMarkers : list Marker
}.

(** The object literals of the emitted [AgmClusterClickEvent]. *)
Module Literal.
Record Bounds := { north : number; east : number; south : number; west : number }.
Record Center := { lat : number; lng : number }.
Record MarkerTitle := { title : option string }.
End Literal.

Record AgmClusterClickEvent := {
  bounds : Literal.Bounds;
  center : Literal.Center;
  markers : list Literal.MarkerTitle
}.

(** ** Objects reachable from the directive *)

(** What an info window's [hostMarker] field can point to: this directive
    (the source assigns [<any> this]) or some other host. *)
Inductive Host := ThisCluster | OtherHost (id : nat).

Record AgmInfoWindow := { hostMarker : option Host }.

(** The two arrow functions handed to [subscribe] in [_addEventListeners];
    both close over [this] only. *)
Inductive Observer := clusterClickNext | doubleClickNext.

(** A subscription object: the stream it listens on, its observer, and
    whether it has been released ([unsubscribe]). *)
Record Subscription := {
  eventName : string;
  next : Observer;
  closed : bool
}.

(** The directive instance ([this]).  [infoWindow] is the content of the
    [QueryList], [_observableSubscriptions] the array of subscription
    references. *)
Record AgmMarkerCluster := {
  options : ClusterOptions;
  openInfoWindow : bool;
  infoWindow : list nat;
  _observableSubscriptions : list nat
}.

(** ** Calls on collaborators *)

(** The methods of [ClusterManager] the directive calls.  A setter receives
    [this]; it is recorded as the options visible through [this] at the time
    of the call. *)
Inductive ManagerCall :=
| setGridSize (c : ClusterOptions)
| setMaxZoom (c : ClusterOptions)
| setStyles (c : ClusterOptions)
| setZoomOnClick (c : ClusterOptions)
| setAverageCenter (c : ClusterOptions)
| setMinimumClusterSize (c : ClusterOptions)
| setImagePath (c : ClusterOptions)
| setImageExtension (c : ClusterOptions)
| init (o : ClusterOptions)
| clearMarkers
| createClusterEventObservable (name : string).

Inductive Effect :=
| Manager (c : ManagerCall)
| InfoWindowOpen (ref : nat)
| ClusterClickEmit (e : AgmClusterClickEvent)
| ConsoleLog (c : Cluster).

(** ** The world and the monad *)

Record World := {
  this : AgmMarkerCluster;
  infoWindows : gmap nat AgmInfoWindow;
  changesObservers : nat;
  subscriptions : list Subscription;
  log : list Effect
}.

Inductive Outcome (A : Type) :=
| Returns (a : A)
| Throws (message : string).
Arguments Returns {A} a.
Arguments Throws {A} message.

Definition M (A : Type) : Type := World → Outcome A * World.

#[global] Instance M_ret : MRet M := λ A a w, (Returns a, w).

#[global] Instance M_bind : MBind M := λ A B f m w,
  match m w with
  | (Returns a, w') => f a w'
  | (Throws e, w') => (Throws e, w')
  end.

Definition throw {A} (message : string) : M A := λ w, (Throws message, w).
Definition gets {A} (f : World → A) : M A := λ w, (Returns (f w), w).
Definition modify (f : World → World) : M unit := λ w, (Returns tt, f w).

(** [if (b) { m }] *)
Definition when (b : bool) (m : M unit) : M unit := if b then m else mret tt.

(** [l.forEach(f)] *)
Fixpoint forEach {A} (l : list A) (f : A → M unit) : M unit :=
  match l with
  | [] => mret tt
  | x :: l' => f x ;; forEach l' f
  end.

(** An object-valued lookup is truthy exactly when the key is present. *)
Definition defined {A} (v : option A) : bool :=
  match v with Some _ => true | None => false end.

(** *** Field updates *)

Definition set_this (d : AgmMarkerCluster) (w : World) : World :=
  {| this := d; infoWindows := infoWindows w;
     changesObservers := changesObservers w;
     subscriptions := subscriptions w; log := log w |}.

Definition set_infoWindows (h : gmap nat AgmInfoWindow) (w : World) : World :=
  {| this := this w; infoWindows := h;
     changesObservers := changesObservers w;
     subscriptions := subscriptions w; log := log w |}.

Definition set_changesObservers (n : nat) (w : World) : World :=
  {| this := this w; infoWindows := infoWindows w;
     changesObservers := n;
     subscriptions := subscriptions w; log := log w |}.

Definition set_subscriptions (s : list Subscription) (w : World) : World :=
  {| this := this w; infoWindows := infoWindows w;
     changesObservers := changesObservers w;
     subscriptions := s; log := log w |}.

Definition set_log (l : list Effect) (w : World) : World :=
  {| this := this w; infoWindows := infoWindows w;
     changesObservers := changesObservers w;
     subscriptions := subscriptions w; log := l |}.

Definition set_options (o : ClusterOptions) (d : AgmMarkerCluster) : AgmMarkerCluster :=
  {| options := o; openInfoWindow := openInfoWindow d;
     infoWindow := infoWindow d;
     _observableSubscriptions := _observableSubscriptions d |}.

Definition set_openInfoWindow (b : bool) (d : AgmMarkerCluster) : AgmMarkerCluster :=
  {| options := options d; openInfoWindow := b;
     infoWindow := infoWindow d;
     _observableSubscriptions := _observableSubscriptions d |}.

Definition set_infoWindow (l : list nat) (d : AgmMarkerCluster) : AgmMarkerCluster :=
  {| options := options d; openInfoWindow := openInfoWindow d;
     infoWindow := l;
     _observableSubscriptions := _observableSubscriptions d |}.

Definition set_observableSubscriptions (l : list nat) (d : AgmMarkerCluster)
  : AgmMarkerCluster :=
  {| options := options d; openInfoWindow := openInfoWindow d;
     infoWindow := infoWindow d;
     _observableSubscriptions := l |}.

(** *** Primitive operations on collaborators *)

Definition perform (e : Effect) : M unit :=
  modify (λ w, set_log (log w ++ [e]) w).

(** [this._clusterManager.m(this)] *)
Definition callWithThis (m : ClusterOptions → ManagerCall) : M unit :=
  d ← gets this; perform (Manager (m (options d))).

(** [marker.hostMarker = h]: a write through the reference. *)
Definition assignHostMarker (ref : nat) (h : Host) : M unit :=
  modify (λ w, set_infoWindows
    (alter (λ _, {| hostMarker := Some h |}) ref (infoWindows w)) w).

(** The stream [createClusterEventObservable(name, this)] returns. *)
Inductive Observable := ClusterEventObservable (name : string).

Definition newClusterEventObservable (name : string) : M Observable :=
  callWithThis (λ _, createClusterEventObservable name);;
  mret (ClusterEventObservable name).

(** [observable.subscribe(next)]: a new open subscription object; its
    reference is returned. *)
Definition subscribe (source : Observable) (o : Observer) : M nat :=
  let 'ClusterEventObservable name := source in
  ref ← gets (λ w, length (subscriptions w));
  modify (λ w, set_subscriptions
    (subscriptions w ++ [{| eventName := name; next := o; closed := false |}]) w);;
  mret ref.

(** [this._observableSubscriptions.push(s)] *)
Definition push (s : nat) : M unit :=
  modify (λ w, set_this
    (set_observableSubscriptions (_observableSubscriptions (this w) ++ [s]) (this w)) w).

(** ** The directive *)

(** Lines 100-107. *)
Definition handleInfoWindowUpdate : M unit :=
  d ← gets this;
  when (bool_decide (1 < length (infoWindow d)))
    (throw "Expected no more than one info window.");;
  forEach (infoWindow d) (λ marker, assignHostMarker marker ThisCluster).

(** Lines 95-98: the constructor body, run after the field initialisers. *)
Definition constructor : M unit :=
  handleInfoWindowUpdate;;
  modify (λ w, set_changesObservers (S (changesObservers w)) w).

(** Lines 110-112. *)
Definition ngOnDestroy : M unit :=
  perform (Manager clearMarkers).

(** Lines 174-192: the event built from the clicked cluster. *)
Definition clusterClickEvent (cluster : Cluster) : AgmClusterClickEvent :=
  let clusterCenter := getCenter cluster in
  let northEastBounds := getNorthEast (getBounds cluster) in
  let southWestBounds := getSouthWest (getBounds cluster) in
  {| bounds := {| Literal.north := lat northEastBounds;
                  Literal.east := lng northEastBounds;
                  Literal.south := lat southWestBounds;
                  Literal.west := lng southWestBounds |};
     center := {| Literal.lat := lat clusterCenter;
                  Literal.lng := lng clusterCenter |};
     markers := (λ marker, {| Literal.title := title marker |}) <$> getMarkers cluster |}.

(** Lines 169-195: the observer of the 'clusterclick' stream. *)
Definition onClusterClick (cluster : Cluster) : M unit :=
  d ← gets this;
  when (openInfoWindow d)
    (forEach (infoWindow d) (λ infoWindow, perform (InfoWindowOpen infoWindow)));;
  let event := clusterClickEvent cluster in
  perform (ClusterClickEmit event).

(** Lines 198-200: the observer of the 'dblclick' stream. *)
Definition onDoubleClick (cluster : Cluster) : M unit :=
  perform (ConsoleLog cluster).

(** Lines 161-204. *)
Definition _addEventListeners : M unit :=
  clusterClickObservable ← newClusterEventObservable "clusterclick";
  doubleClickObservable ← newClusterEventObservable "dblclick";
  clusterClickSubscription ← subscribe clusterClickObservable clusterClickNext;
  doubleClickSubscription ← subscribe doubleClickObservable doubleClickNext;
  push clusterClickSubscription;;
  push doubleClickSubscription.

(** Lines 115-145. *)
Definition ngOnChanges (changes : gmap string SimpleChange) : M unit :=
  when (defined (changes !! "gridSize")) (callWithThis setGridSize);;
  when (defined (changes !! "maxZoom")) (callWithThis setMaxZoom);;
  when (defined (changes !! "styles")) (callWithThis setStyles);;
  when (defined (changes !! "zoomOnClick")) (callWithThis setZoomOnClick);;
  when (defined (changes !! "averageCenter")) (callWithThis setAverageCenter);;
  when (defined (changes !! "minimumClusterSize")) (callWithThis setMinimumClusterSize);;
  when (defined (changes !! "styles")) (callWithThis setStyles);;
  when (defined (changes !! "imagePath")) (callWithThis setImagePath);;
  when (defined (changes !! "imageExtension")) (callWithThis setImageExtension);;
  _addEventListeners.

(** Lines 148-159. *)
Definition ngOnInit : M unit :=
  d ← gets this;
  perform (Manager (init
    {| gridSize := gridSize (options d);
       maxZoom := maxZoom (options d);
       zoomOnClick := zoomOnClick (options d);
       averageCenter := averageCenter (options d);
       minimumClusterSize := minimumClusterSize (options d);
       styles := styles (options d);
       imagePath := imagePath (options d);
       imageExtension := imageExtension (options d) |})).

(** ** The host *)

(** The field initialisers of lines 48-93: every option [undefined],
    [openInfoWindow] true, an empty query list, no subscriptions. *)
Definition initialFields : AgmMarkerCluster :=
  {| options := {| gridSize := None; maxZoom := None; zoomOnClick := None;
                   averageCenter := None; minimumClusterSize := None;
                   styles := None; imagePath := None; imageExtension := None |};
     openInfoWindow := true;
     infoWindow := [];
     _observableSubscriptions := [] |}.

(** The world in which [new AgmMarkerCluster(manager)] starts, given the
    info-window objects that exist. *)
Definition initialWorld (heap : gmap nat AgmInfoWindow) : World :=
  {| this := initialFields; infoWindows := heap; changesObservers := 0;
     subscriptions := []; log := [] |}.

(** A write of the host to one [@Input()] property. *)
Inductive Input :=
| inGridSize (v : option number)
| inMaxZoom (v : option number)
| inZoomOnClick (v : option bool)
| inAverageCenter (v : option bool)
| inMinimumClusterSize (v : option number)
| inStyles (v : option ClusterStyle)
| inOpenInfoWindow (v : bool)
| inImagePath (v : option string)
| inImageExtension (v : option string).

Definition assignInput (i : Input) (d : AgmMarkerCluster) : AgmMarkerCluster :=
  let o := options d in
  match i with
  | inGridSize v => set_options
      {| gridSize := v; maxZoom := maxZoom o; zoomOnClick := zoomOnClick o;
         averageCenter := averageCenter o; minimumClusterSize := minimumClusterSize o;
         styles := styles o; imagePath := imagePath o; imageExtension := imageExtension o |} d
  | inMaxZoom v => set_options
      {| gridSize := gridSize o; maxZoom := v; zoomOnClick := zoomOnClick o;
         averageCenter := averageCenter o; minimumClusterSize := minimumClusterSize o;
         styles := styles o; imagePath := imagePath o; imageExtension := imageExtension o |} d
  | inZoomOnClick v => set_options
      {| gridSize := gridSize o; maxZoom := maxZoom o; zoomOnClick := v;
         averageCenter := averageCenter o; minimumClusterSize := minimumClusterSize o;
         styles := styles o; imagePath := imagePath o; imageExtension := imageExtension o |} d
  | inAverageCenter v => set_options
      {| gridSize := gridSize o; maxZoom := maxZoom o; zoomOnClick := zoomOnClick o;
         averageCenter := v; minimumClusterSize := minimumClusterSize o;
         styles := styles o; imagePath := imagePath o; imageExtension := imageExtension o |} d
  | inMinimumClusterSize v => set_options
      {| gridSize := gridSize o; maxZoom := maxZoom o; zoomOnClick := zoomOnClick o;
         averageCenter := averageCenter o; minimumClusterSize := v;
         styles := styles o; imagePath := imagePath o; imageExtension := imageExtension o |} d
  | inStyles v => set_options
      {| gridSize := gridSize o; maxZoom := maxZoom o; zoomOnClick := zoomOnClick o;
         averageCenter := averageCenter o; minimumClusterSize := minimumClusterSize o;
         styles := v; imagePath := imagePath o; imageExtension := imageExtension o |} d
  | inOpenInfoWindow v => set_openInfoWindow v d
  | inImagePath v => set_options
      {| gridSize := gridSize o; maxZoom := maxZoom o; zoomOnClick := zoomOnClick o;
         averageCenter := averageCenter o; minimumClusterSize := minimumClusterSize o;
         styles := styles o; imagePath := v; imageExtension := imageExtension o |} d
  | inImageExtension v => set_options
      {| gridSize := gridSize o; maxZoom := maxZoom o; zoomOnClick := zoomOnClick o;
         averageCenter := averageCenter o; minimumClusterSize := minimumClusterSize o;
         styles := styles o; imagePath := imagePath o; imageExtension := v |} d
  end.

(** The observer behind a subscription. *)
Definition runObserver (o : Observer) (cluster : Cluster) : M unit :=
  match o with
  | clusterClickNext => onClusterClick cluster
  | doubleClickNext => onDoubleClick cluster
  end.

Definition listensTo (name : string) (s : Subscription) : bool :=
  bool_decide (eventName s = name) && negb (closed s).

(** A stream of the manager delivers [cluster]: every open subscription on
    that stream has its observer called, in subscription order. *)
Definition deliver (name : string) (cluster : Cluster) : M unit :=
  subs ← gets subscriptions;
  forEach (filter (λ s, listensTo name s = true) subs)
          (λ s, runObserver (next s) cluster).

(** The query list's content changes: the host replaces the content, then
    [changes] notifies each observer registered by the constructor. *)
Definition contentChanges (refs : list nat) : M unit :=
  modify (λ w, set_this (set_infoWindow refs (this w)) w);;
  n ← gets changesObservers;
  forEach (replicate n tt) (λ _, handleInfoWindowUpdate).

(** Everything that can happen to a constructed directive. *)
Inductive Action :=
| SetInput (i : Input)
| NgOnChanges (changes : gmap string SimpleChange)
| NgOnInit
| NgOnDestroy
| ContentChanges (refs : list nat)
| Deliver (name : string) (cluster : Cluster).

Definition step (a : Action) : M unit :=
  match a with
  | SetInput i => modify (λ w, set_this (assignInput i (this w)) w)
  | NgOnChanges changes => ngOnChanges changes
  | NgOnInit => ngOnInit
  | NgOnDestroy => ngOnDestroy
  | ContentChanges refs => contentChanges refs
  | Deliver name cluster => deliver name cluster
  end.

(** A life of the directive: construction, then the actions in order; an
    exception ends it. *)
Definition live (actions : list Action) : M unit :=
  constructor;; forEach actions step.

(** *** Observations on a log *)

Definition isSetter (e : Effect) : bool :=
  match e with
  | Manager (setGridSize _) | Manager (setMaxZoom _) | Manager (setStyles _)
  | Manager (setZoomOnClick _) | Manager (setAverageCenter _)
  | Manager (setMinimumClusterSize _) | Manager (setImagePath _)
  | Manager (setImageExtension _) => true
  | _ => false
  end.

Definition isInit (e : Effect) : bool :=
  match e with Manager (init _) => true | _ => false end.


(** The [init] calls of a log, in order. *)
Definition initCalls (l : list Effect) : list Effect :=
  filter (λ e, isInit e = true) l.

(** The setter and init calls of a log, in order. *)
Definition configurationCalls (l : list Effect) : list Effect :=
  filter (λ e, isSetter e || isInit e = true) l.

(** The open subscriptions on a stream. *)
Definition openSubscriptions (name : string) (w : World) : list Subscription :=
  filter (λ s, listensTo name s = true) (subscriptions w).

(** The setter that belongs to an input option. *)
Definition setterOf (key : string) : option (ClusterOptions → ManagerCall) :=
  if decide (key = "gridSize") then Some setGridSize
  else if decide (key = "maxZoom") then Some setMaxZoom
  else if decide (key = "styles") then Some setStyles
  else if decide (key = "zoomOnClick") then Some setZoomOnClick
  else if decide (key = "averageCenter") then Some setAverageCenter
  else if decide (key = "minimumClusterSize") then Some setMinimumClusterSize
  else if decide (key = "imagePath") then Some setImagePath
  else if decide (key = "imageExtension") then Some setImageExtension
  else None.

(** What a computation appended to the log. *)
Definition appended (m : M unit) (w : World) : list Effect :=
  drop (length (log w)) (log (m w).2).

(** ** The vocabulary of the properties *)

(** A computation leaves every world related by [R] to the world it ends
    in, whether it returns or raises. *)
Definition keeps (R : World → World → Prop) {A} (m : M A) : Prop :=
  ∀ w, R w (m w).2.

(** The flag [openInfoWindow] is left as it was. *)
Definition sameFlag (w w' : World) : Prop :=
  openInfoWindow (this w') = openInfoWindow (this w).

(** The subscription objects are left as they were. *)
Definition sameSubscriptions (w w' : World) : Prop :=
  subscriptions w' = subscriptions w.

(** The log has the same [init] calls. *)
Definition sameInits (w w' : World) : Prop :=
  initCalls (log w') = initCalls (log w).

(** Whether a run ended in an exception. *)
Definition raised {A} (r : Outcome A * World) : bool :=
  match r.1 with Throws _ => true | Returns _ => false end.

(** The heap after [refs.forEach(marker => marker.hostMarker = h)]. *)
Definition assignAll (h : Host) (refs : list nat) (heap : gmap nat AgmInfoWindow)
  : gmap nat AgmInfoWindow :=
  foldl (λ heap ref, alter (λ _, {| hostMarker := Some h |}) ref heap) heap refs.

(** The setter calls of lines 116-142, for the options seen through [this]. *)
Definition settersFor (changes : gmap string SimpleChange) (o : ClusterOptions)
  : list Effect :=
  (if defined (changes !! "gridSize") then [Manager (setGridSize o)] else [])
  ++ (if defined (changes !! "maxZoom") then [Manager (setMaxZoom o)] else [])
  ++ (if defined (changes !! "styles") then [Manager (setStyles o)] else [])
  ++ (if defined (changes !! "zoomOnClick") then [Manager (setZoomOnClick o)] else [])
  ++ (if defined (changes !! "averageCenter") then [Manager (setAverageCenter o)] else [])
  ++ (if defined (changes !! "minimumClusterSize")
      then [Manager (setMinimumClusterSize o)] else [])
  ++ (if defined (changes !! "styles") then [Manager (setStyles o)] else [])
  ++ (if defined (changes !! "imagePath") then [Manager (setImagePath o)] else [])
  ++ (if defined (changes !! "imageExtension")
      then [Manager (setImageExtension o)] else []).

(** The two subscription objects one run of [_addEventListeners] creates. *)
Definition clickSubscription : Subscription :=
  {| eventName := "clusterclick"; next := clusterClickNext; closed := false |}.

Definition doubleClickSubscription : Subscription :=
  {| eventName := "dblclick"; next := doubleClickNext; closed := false |}.

Definition isNgOnChanges (a : Action) : bool :=
  match a with NgOnChanges _ => true | _ => false end.

(** How often the host called [ngOnChanges]. *)
Definition changesCount (actions : list Action) : nat :=
  length (filter (λ a, isNgOnChanges a = true) actions).

(** The host writes the [openInfoWindow] input. *)
Definition setsOpenInfoWindow (a : Action) : bool :=
  match a with SetInput (inOpenInfoWindow _) => true | _ => false end.

(** *** Concrete values *)

Definition exampleChange : SimpleChange :=
  {| previousValue := undefined; currentValue := anyNumber 60%float;
     firstChange := true |}.

Definition nextChange : SimpleChange :=
  {| previousValue := anyNumber 60%float; currentValue := anyNumber 80%float;
     firstChange := false |}.

Definition exampleCluster : Cluster :=
  {| getCenter := {| lat := 48.5%float; lng := 9.25%float |};
     getBounds := {| getNorthEast := {| lat := 49%float; lng := 10%float |};
                     getSouthWest := {| lat := 48%float; lng := 8.5%float |} |};
     getMarkers :=
       [ {| title := Some "first"; label := Some "M";
            getPosition := {| lat := 49%float; lng := 10%float |} |};
         {| title := None; label := Some "N";
            getPosition := {| lat := 48%float; lng := 8.5%float |} |} ] |}.

(** One info window, not yet attached. *)
Definition exampleHeap : gmap nat AgmInfoWindow :=
  {[ 7 := {| hostMarker := None |} ]}.

(** Two info windows, the first attached elsewhere. *)
Definition crowdedHeap : gmap nat AgmInfoWindow :=
  {[ 7 := {| hostMarker := Some (OtherHost 3) |}; 8 := {| hostMarker := None |} ]}.

(** A constructed directive whose query list holds [refs]. *)
Definition projected (heap : gmap nat AgmInfoWindow) (refs : list nat) : World :=
  set_this (set_infoWindow refs initialFields) (constructor (initialWorld heap)).2.


(** *** Further vocabulary *)

(** The effects of one run of the click observer, lines 170-194, for the
    directive as it is when the click arrives. *)
Definition clickEffects (cluster : Cluster) (d : AgmMarkerCluster) : list Effect :=
  (if openInfoWindow d then InfoWindowOpen <$> infoWindow d else [])
  ++ [ClusterClickEmit (clusterClickEvent cluster)].

(** The subscription objects one [ngOnChanges] call adds, in order. *)
Definition listeners : list Subscription :=
  [clickSubscription; doubleClickSubscription].

(** The setters in the order of lines 116-142. *)
Definition setterSequence (o : ClusterOptions) : list Effect :=
  [ Manager (setGridSize o); Manager (setMaxZoom o); Manager (setStyles o);
    Manager (setZoomOnClick o); Manager (setAverageCenter o);
    Manager (setMinimumClusterSize o); Manager (setStyles o);
    Manager (setImagePath o); Manager (setImageExtension o) ].

(** The keys [ngOnChanges] looks up, lines 116-142. *)
Definition optionKeys : list string :=
  [ "gridSize"; "maxZoom"; "styles"; "zoomOnClick"; "averageCenter";
    "minimumClusterSize"; "imagePath"; "imageExtension" ].

(** A life with one projected info window and two changes of an input. *)
Definition exampleLife : list Action :=
  [ ContentChanges [7];
    SetInput (inGridSize (Some 60%float));
    NgOnChanges {[ "gridSize" := exampleChange ]};
    NgOnInit;
    SetInput (inGridSize (Some 80%float));
    NgOnChanges {[ "gridSize" := nextChange ]} ].

(** The life of a directive used without any bound input, as in the
    example of lines 24-31, with one projected info window: the host calls
    [ngOnInit] and never [ngOnChanges]. *)
Definition unboundLife : list Action :=
  [ ContentChanges [7]; NgOnInit ].

(** The world that life ends in. *)
Definition afterExampleLife : World :=
  (live exampleLife (initialWorld exampleHeap)).2.

(** A content change that projects more than one info window. *)
Definition projectsTooMany (a : Action) : bool :=
  match a with
  | ContentChanges refs => bool_decide (1 < length refs)
  | _ => false
  end.

Definition isSetInput (a : Action) : bool :=
  match a with SetInput _ => true | _ => false end.

Definition isContentChanges (a : Action) : bool :=
  match a with ContentChanges _ => true | _ => false end.

(** The observers of [infoWindow.changes] are left as they were. *)
Definition sameObservers (w w' : World) : Prop :=
  changesObservers w' = changesObservers w.

(** The info-window objects are left as they were. *)
Definition sameHeap (w w' : World) : Prop :=
  infoWindows w' = infoWindows w.

(** The query list is left as it was. *)
Definition sameProjection (w w' : World) : Prop :=
  infoWindow (this w') = infoWindow (this w).

(** The options and the flag, the directive's inputs, are left as they were. *)
Definition sameInputs (w w' : World) : Prop :=
  options (this w') = options (this w) ∧
  openInfoWindow (this w') = openInfoWindow (this w).

(** The array of subscription references is left as it was. *)
Definition sameHandles (w w' : World) : Prop :=
  _observableSubscriptions (this w') = _observableSubscriptions (this w).

(** The directive's bookkeeping of its subscriptions: the objects are those
    of some number of [_addEventListeners] runs, and the array holds one
    reference to each, in order. *)
Definition wellListed (w : World) : Prop :=
  ∃ n, subscriptions w = mjoin (replicate n listeners) ∧
       _observableSubscriptions (this w) = seq 0 (length (subscriptions w)).

(** * Properties *)

(** ** Running the monad *)

Lemma bind_run {A B} (m : M A) (f : A → M B) (w : World) :
  (m ≫= f) w =
  match m w with
  | (Returns a, w') => f a w'
  | (Throws e, w') => (Throws e, w')
  end.
Proof. reflexivity. Qed.

Lemma set_log_same (w : World) : set_log (log w) w = w.
Proof. by destruct w. Qed.

Lemma perform_run (e : Effect) (w : World) :
  perform e w = (Returns tt, set_log (log w ++ [e]) w).
Proof. reflexivity. Qed.

Lemma forEach_perform {A} (g : A → Effect) (l : list A) (w : World) :
  forEach l (λ x, perform (g x)) w = (Returns tt, set_log (log w ++ (g <$> l)) w).
Proof.
  revert w. induction l as [|x l IH]; intros w; simpl.
  - by rewrite app_nil_r, set_log_same.
  - rewrite bind_run, perform_run, IH. simpl.
    by rewrite <- app_assoc.
Qed.

Lemma when_call_run (b : bool) (f : ClusterOptions → ManagerCall) (k : M unit) (w : World) :
  (when b (callWithThis f);; k) w =
  k (set_log (log w ++ (if b then [Manager (f (options (this w)))] else [])) w).
Proof.
  destruct b; simpl.
  - reflexivity.
  - rewrite bind_run. simpl. by rewrite app_nil_r, set_log_same.
Qed.

Lemma appended_set_log (m : M unit) (w : World) (l : list Effect) :
  log (m w).2 = log w ++ l → appended m w = l.
Proof.
  unfold appended. intros ->. by rewrite drop_app_length.
Qed.

(** ** Frames: what a computation leaves related *)

Section Frame.
Variable R : World → World → Prop.
Hypothesis R_refl : ∀ w, R w w.
Hypothesis R_trans : ∀ a b c, R a b → R b c → R a c.

Lemma keeps_ret {A} (a : A) : keeps R (mret a).
Proof. intros w. apply R_refl. Qed.

Lemma keeps_throw {A} (message : string) : keeps R (@throw A message).
Proof. intros w. apply R_refl. Qed.

Lemma keeps_gets {A} (f : World → A) : keeps R (gets f).
Proof. intros w. apply R_refl. Qed.

Lemma keeps_modify (f : World → World) : (∀ w, R w (f w)) → keeps R (modify f).
Proof. intros H w. apply H. Qed.

Lemma keeps_bind {A B} (m : M A) (f : A → M B) :
  keeps R m → (∀ a, keeps R (f a)) → keeps R (m ≫= f).
Proof.
  intros Hm Hf w. rewrite bind_run.
  specialize (Hm w). destruct (m w) as [[a|e] w']; simpl in *.
  - eapply R_trans; [exact Hm | apply Hf].
  - exact Hm.
Qed.

Lemma keeps_when (b : bool) (m : M unit) : keeps R m → keeps R (when b m).
Proof. intros Hm. destruct b; [exact Hm | apply keeps_ret]. Qed.

Lemma keeps_forEach {A} (l : list A) (f : A → M unit) :
  (∀ x, x ∈ l → keeps R (f x)) → keeps R (forEach l f).
Proof.
  induction l as [|x l IH]; intros Hf; simpl.
  - apply keeps_ret.
  - apply keeps_bind.
    + apply Hf. left.
    + intros _. apply IH. intros y Hy. apply Hf. by right.
Qed.
End Frame.

Lemma sameFlag_refl w : sameFlag w w.
Proof. done. Qed.
Lemma sameFlag_trans a b c : sameFlag a b → sameFlag b c → sameFlag a c.
Proof. unfold sameFlag. congruence. Qed.
Lemma sameSubscriptions_refl w : sameSubscriptions w w.
Proof. done. Qed.
Lemma sameSubscriptions_trans a b c :
  sameSubscriptions a b → sameSubscriptions b c → sameSubscriptions a c.
Proof. unfold sameSubscriptions. congruence. Qed.
Lemma sameInits_refl w : sameInits w w.
Proof. done. Qed.
Lemma sameInits_trans a b c : sameInits a b → sameInits b c → sameInits a c.
Proof. unfold sameInits. congruence. Qed.

Create HintDb frames.

#[local] Hint Resolve sameFlag_refl sameFlag_trans sameSubscriptions_refl
  sameSubscriptions_trans sameInits_refl sameInits_trans : frames.

(** Breaks a frame goal down to the primitive state changes; a change that
    leaves the related component alone is closed by computation. *)
Ltac frame :=
  repeat first
    [ solve [eauto with frames]
    | apply keeps_ret
    | apply keeps_throw
    | apply keeps_gets
    | apply keeps_bind; [ .. | intros ? ]
    | apply keeps_when
    | apply keeps_forEach; [ .. | intros ? _ ]
    | apply keeps_modify; [ intros ? ]
    | solve [hnf; reflexivity] ].

Lemma keeps_sameInits_perform (e : Effect) :
  isInit e = false → keeps sameInits (perform e).
Proof.
  intros He w. unfold sameInits, initCalls. simpl.
  rewrite filter_app, filter_cons, filter_nil.
  rewrite decide_False by (rewrite He; discriminate).
  apply app_nil_r.
Qed.

#[local] Hint Extern 1 (keeps sameInits (perform _)) =>
  apply keeps_sameInits_perform; reflexivity : frames.

(** *** The flag *)

Lemma sameFlag_subscribe source o : keeps sameFlag (subscribe source o).
Proof. destruct source. unfold subscribe. frame. Qed.

Lemma sameFlag_addEventListeners : keeps sameFlag _addEventListeners.
Proof.
  pose proof sameFlag_subscribe.
  unfold _addEventListeners, newClusterEventObservable, callWithThis, push. frame.
Qed.

Lemma sameFlag_ngOnChanges changes : keeps sameFlag (ngOnChanges changes).
Proof.
  pose proof sameFlag_addEventListeners.
  unfold ngOnChanges, callWithThis. frame.
Qed.

Lemma sameFlag_handleInfoWindowUpdate : keeps sameFlag handleInfoWindowUpdate.
Proof. unfold handleInfoWindowUpdate, assignHostMarker. frame. Qed.

Lemma sameFlag_runObserver o cluster : keeps sameFlag (runObserver o cluster).
Proof. destruct o; unfold runObserver, onClusterClick, onDoubleClick. all: frame. Qed.

#[local] Hint Resolve sameFlag_subscribe sameFlag_addEventListeners
  sameFlag_ngOnChanges sameFlag_handleInfoWindowUpdate sameFlag_runObserver : frames.

Lemma sameFlag_constructor : keeps sameFlag constructor.
Proof. unfold constructor. frame. Qed.

Lemma sameFlag_step (a : Action) :
  (∀ v, a ≠ SetInput (inOpenInfoWindow v)) → keeps sameFlag (step a).
Proof.
  intros Ha. destruct a as [i| | | | |]; simpl.
  - destruct i; try (by frame). by destruct (Ha v).
  - frame.
  - unfold ngOnInit. frame.
  - unfold ngOnDestroy. frame.
  - unfold contentChanges. frame.
  - unfold deliver. frame.
Qed.

(** *** The subscriptions *)

Lemma sameSubscriptions_handleInfoWindowUpdate :
  keeps sameSubscriptions handleInfoWindowUpdate.
Proof. unfold handleInfoWindowUpdate, assignHostMarker. frame. Qed.

Lemma sameSubscriptions_runObserver o cluster :
  keeps sameSubscriptions (runObserver o cluster).
Proof. destruct o; unfold runObserver, onClusterClick, onDoubleClick. all: frame. Qed.

#[local] Hint Resolve sameSubscriptions_handleInfoWindowUpdate
  sameSubscriptions_runObserver : frames.

Lemma sameSubscriptions_constructor : keeps sameSubscriptions constructor.
Proof. unfold constructor. frame. Qed.

Lemma sameSubscriptions_step (a : Action) :
  (∀ changes, a ≠ NgOnChanges changes) → keeps sameSubscriptions (step a).
Proof.
  intros Ha. destruct a as [i|changes| | | |]; simpl.
  - frame.
  - by destruct (Ha changes).
  - unfold ngOnInit. frame.
  - unfold ngOnDestroy. frame.
  - unfold contentChanges. frame.
  - unfold deliver. frame.
Qed.

(** *** The init calls *)

Lemma sameInits_subscribe source o : keeps sameInits (subscribe source o).
Proof. destruct source. unfold subscribe. frame. Qed.

Lemma sameInits_addEventListeners : keeps sameInits _addEventListeners.
Proof.
  pose proof sameInits_subscribe.
  unfold _addEventListeners, newClusterEventObservable, callWithThis, push. frame.
Qed.

Lemma sameInits_ngOnChanges changes : keeps sameInits (ngOnChanges changes).
Proof.
  pose proof sameInits_addEventListeners.
  unfold ngOnChanges, callWithThis. frame.
Qed.

Lemma sameInits_handleInfoWindowUpdate : keeps sameInits handleInfoWindowUpdate.
Proof. unfold handleInfoWindowUpdate, assignHostMarker. frame. Qed.

Lemma sameInits_runObserver o cluster : keeps sameInits (runObserver o cluster).
Proof. destruct o; unfold runObserver, onClusterClick, onDoubleClick. all: frame. Qed.

#[local] Hint Resolve sameInits_subscribe sameInits_addEventListeners
  sameInits_ngOnChanges sameInits_handleInfoWindowUpdate sameInits_runObserver : frames.

Lemma sameInits_constructor : keeps sameInits constructor.
Proof. unfold constructor. frame. Qed.

Lemma sameInits_step (a : Action) : a ≠ NgOnInit → keeps sameInits (step a).
Proof.
  intros Ha. destruct a as [i| | | | |]; simpl.
  - frame.
  - frame.
  - done.
  - unfold ngOnDestroy. frame.
  - unfold contentChanges. frame.
  - unfold deliver. frame.
Qed.

(** ** Running the guard and the click observer *)

Lemma set_infoWindows_same (w : World) : set_infoWindows (infoWindows w) w = w.
Proof. by destruct w. Qed.

Lemma forEach_assignHostMarker (h : Host) (refs : list nat) (w : World) :
  forEach refs (λ marker, assignHostMarker marker h) w =
  (Returns tt, set_infoWindows (assignAll h refs (infoWindows w)) w).
Proof.
  revert w. induction refs as [|ref refs IH]; intros w; simpl.
  - by rewrite set_infoWindows_same.
  - rewrite bind_run. unfold assignHostMarker at 1. simpl. by rewrite IH.
Qed.

Lemma handleInfoWindowUpdate_run (w : World) :
  handleInfoWindowUpdate w =
  if bool_decide (1 < length (infoWindow (this w)))
  then (Throws "Expected no more than one info window.", w)
  else (Returns tt,
        set_infoWindows (assignAll ThisCluster (infoWindow (this w)) (infoWindows w)) w).
Proof.
  unfold handleInfoWindowUpdate. rewrite bind_run. simpl.
  rewrite bind_run. destruct (bool_decide _); simpl; [reflexivity|].
  apply forEach_assignHostMarker.
Qed.

Lemma onClusterClick_run (cluster : Cluster) (w : World) :
  onClusterClick cluster w =
  (Returns tt,
   set_log (log w
            ++ (if openInfoWindow (this w)
                then InfoWindowOpen <$> infoWindow (this w) else [])
            ++ [ClusterClickEmit (clusterClickEvent cluster)]) w).
Proof.
  unfold onClusterClick. rewrite bind_run. simpl. rewrite bind_run.
  destruct (openInfoWindow (this w)); simpl.
  - rewrite (forEach_perform InfoWindowOpen). simpl.
    rewrite perform_run. simpl. by rewrite <- app_assoc.
  - reflexivity.
Qed.

Lemma appended_onClusterClick (cluster : Cluster) (w : World) :
  appended (onClusterClick cluster) w =
  (if openInfoWindow (this w) then InfoWindowOpen <$> infoWindow (this w) else [])
  ++ [ClusterClickEmit (clusterClickEvent cluster)].
Proof. apply appended_set_log. by rewrite onClusterClick_run. Qed.

(** ** The info-window guard *)

(** C3: [handleInfoWindowUpdate] returns normally on every state with zero
    or one projected info window, and raises on every state with two or
    more. *)
Theorem handleInfoWindowUpdate_raises_iff_more_than_one (w : World) :
  (length (infoWindow (this w)) ≤ 1 → raised (handleInfoWindowUpdate w) = false) ∧
  (2 ≤ length (infoWindow (this w)) → raised (handleInfoWindowUpdate w) = true).
Proof.
  rewrite handleInfoWindowUpdate_run. split; intros Hlen.
  - rewrite bool_decide_eq_false_2 by lia. reflexivity.
  - rewrite bool_decide_eq_true_2 by lia. reflexivity.
Qed.

(** C10: when [handleInfoWindowUpdate] raises, it has assigned no
    [hostMarker]: every info-window object is as it was before the call. *)
Theorem handleInfoWindowUpdate_raise_assigns_nothing (w : World) :
  raised (handleInfoWindowUpdate w) = true →
  ∀ ref, hostMarker <$> infoWindows (handleInfoWindowUpdate w).2 !! ref
         = hostMarker <$> infoWindows w !! ref.
Proof.
  rewrite handleInfoWindowUpdate_run.
  destruct (bool_decide _); simpl; [reflexivity | discriminate].
Qed.

(** ** The click observer *)



(** ** Initialisation *)

Lemma ngOnInit_run (w : World) :
  ngOnInit w = (Returns tt, set_log (log w ++ [Manager (init (options (this w)))]) w).
Proof.
  unfold ngOnInit. rewrite bind_run. simpl. rewrite perform_run.
  by destruct (options (this w)).
Qed.

(** C7: [ngOnInit] returns after exactly one call on the manager, an [init]
    whose argument has the directive's current value in each of the eight
    options. *)
Theorem ngOnInit_forwards_full_configuration (w : World) :
  ∃ o,
    raised (ngOnInit w) = false ∧
    appended ngOnInit w = [Manager (init o)] ∧
    gridSize o = gridSize (options (this w)) ∧
    maxZoom o = maxZoom (options (this w)) ∧
    zoomOnClick o = zoomOnClick (options (this w)) ∧
    averageCenter o = averageCenter (options (this w)) ∧
    minimumClusterSize o = minimumClusterSize (options (this w)) ∧
    styles o = styles (options (this w)) ∧
    imagePath o = imagePath (options (this w)) ∧
    imageExtension o = imageExtension (options (this w)).
Proof.
  exists (options (this w)). rewrite ngOnInit_run.
  split; [reflexivity|]. split; [|by repeat split].
  apply appended_set_log. by rewrite ngOnInit_run.
Qed.

(** ** Option changes *)

Lemma addEventListeners_run (w : World) :
  _addEventListeners w =
  (Returns tt,
   {| this := set_observableSubscriptions
                ((_observableSubscriptions (this w) ++ [length (subscriptions w)])
                 ++ [length (subscriptions w ++ [clickSubscription])]) (this w);
      infoWindows := infoWindows w;
      changesObservers := changesObservers w;
      subscriptions := (subscriptions w ++ [clickSubscription]) ++ [doubleClickSubscription];
      log := (log w ++ [Manager (createClusterEventObservable "clusterclick")])
             ++ [Manager (createClusterEventObservable "dblclick")] |}).
Proof. reflexivity. Qed.

Lemma ngOnChanges_run (changes : gmap string SimpleChange) (w : World) :
  ngOnChanges changes w =
  _addEventListeners (set_log (log w ++ settersFor changes (options (this w))) w).
Proof.
  unfold ngOnChanges. rewrite !when_call_run. simpl.
  unfold settersFor. by rewrite <- !app_assoc.
Qed.

Lemma appended_ngOnChanges (changes : gmap string SimpleChange) (w : World) :
  appended (ngOnChanges changes) w =
  settersFor changes (options (this w))
  ++ [Manager (createClusterEventObservable "clusterclick");
      Manager (createClusterEventObservable "dblclick")].
Proof.
  apply appended_set_log. rewrite ngOnChanges_run, addEventListeners_run. simpl.
  by rewrite <- !app_assoc.
Qed.

Lemma configurationCalls_ngOnChanges (changes : gmap string SimpleChange) (w : World) :
  configurationCalls (appended (ngOnChanges changes) w)
  = settersFor changes (options (this w)).
Proof.
  rewrite appended_ngOnChanges. unfold configurationCalls, settersFor.
  repeat (destruct (defined _)); reflexivity.
Qed.

(** Every option but [styles]: a change of that option alone makes one call,
    its own setter. *)
Lemma ngOnChanges_single_option (key : string) (setter : ClusterOptions → ManagerCall)
    (change : SimpleChange) (w : World) :
  setterOf key = Some setter → key ≠ "styles" →
  configurationCalls (appended (ngOnChanges {[ key := change ]}) w)
  = [Manager (setter (options (this w)))].
Proof.
  intros Hkey Hstyles. rewrite configurationCalls_ngOnChanges.
  unfold setterOf in Hkey.
  repeat case_decide; simplify_eq; reflexivity.
Qed.

(** C1, at [styles]: a change of [styles] alone makes two calls of
    [setStyles], one for each of the two tests of lines 122 and 134. *)
Theorem ngOnChanges_styles_calls_setStyles_twice (change : SimpleChange) (w : World) :
  setterOf "styles" = Some setStyles ∧
  configurationCalls (appended (ngOnChanges {[ "styles" := change ]}) w)
  = [Manager (setStyles (options (this w))); Manager (setStyles (options (this w)))].
Proof.
  split; [reflexivity|]. rewrite configurationCalls_ngOnChanges. reflexivity.
Qed.

(** C8: [ngOnChanges] adds no [init] call to the log, whatever the changes;
    of all that can happen to the directive, only [ngOnInit] adds one. *)
Theorem only_ngOnInit_calls_init :
  (∀ changes w, initCalls (log (ngOnChanges changes w).2) = initCalls (log w)) ∧
  (∀ w, initCalls (log (constructor w).2) = initCalls (log w)) ∧
  (∀ a w, a ≠ NgOnInit → initCalls (log (step a w).2) = initCalls (log w)) ∧
  (∀ w, initCalls (log (step NgOnInit w).2)
        = initCalls (log w) ++ [Manager (init (options (this w)))]).
Proof.
  split; [|split; [|split]].
  - intros changes w. apply sameInits_ngOnChanges.
  - intros w. apply sameInits_constructor.
  - intros a w Ha. by apply sameInits_step.
  - intros w. change (step NgOnInit w) with (ngOnInit w).
    rewrite ngOnInit_run. simpl.
    unfold initCalls. by rewrite filter_app.
Qed.

(** ** Subscriptions over a life *)

Lemma openSubscriptions_ngOnChanges (changes : gmap string SimpleChange) (w : World) :
  ngOnChanges changes w = (Returns tt, (ngOnChanges changes w).2) ∧
  openSubscriptions "clusterclick" (ngOnChanges changes w).2
    = openSubscriptions "clusterclick" w ++ [clickSubscription] ∧
  openSubscriptions "dblclick" (ngOnChanges changes w).2
    = openSubscriptions "dblclick" w ++ [doubleClickSubscription].
Proof.
  rewrite ngOnChanges_run, addEventListeners_run. simpl.
  split; [reflexivity|]. unfold openSubscriptions. simpl.
  rewrite !filter_app. simpl. rewrite !filter_cons, !filter_nil. simpl.
  by rewrite !app_nil_r.
Qed.

Lemma forEach_step_subscriptions (actions : list Action) (w0 w : World) :
  forEach actions step w0 = (Returns tt, w) →
  length (openSubscriptions "clusterclick" w)
    = length (openSubscriptions "clusterclick" w0) + changesCount actions ∧
  length (openSubscriptions "dblclick" w)
    = length (openSubscriptions "dblclick" w0) + changesCount actions.
Proof.
  revert w0. induction actions as [|a actions IH]; intros w0; simpl.
  - intros [= ->]. unfold changesCount. simpl. lia.
  - rewrite bind_run. destruct (step a w0) as [[[]|e] w1] eqn:Hstep; [|discriminate].
    intros Hrest. destruct (IH _ Hrest) as [Hclick Hdouble].
    rewrite Hclick, Hdouble. unfold changesCount. rewrite filter_cons.
    assert (w1 = (step a w0).2) as -> by (by rewrite Hstep).
    destruct (decide (isNgOnChanges a = true)) as [Hchange|Hother].
    + destruct a as [|changes| | | |]; try discriminate.
      destruct (openSubscriptions_ngOnChanges changes w0) as (_ & Hc & Hd).
      change (step (NgOnChanges changes) w0) with (ngOnChanges changes w0).
      rewrite Hc, Hd, !length_app. simpl. lia.
    + assert (subscriptions (step a w0).2 = subscriptions w0) as Hsame.
      { apply sameSubscriptions_step. intros changes ->. by apply Hother. }
      unfold openSubscriptions. rewrite Hsame. lia.
Qed.

(** In a life that completes, there are as many open click subscriptions,
    and as many open double-click subscriptions, as [ngOnChanges] calls. *)
Lemma live_subscription_count (heap : gmap nat AgmInfoWindow)
    (actions : list Action) (w : World) :
  live actions (initialWorld heap) = (Returns tt, w) →
  length (openSubscriptions "clusterclick" w) = changesCount actions ∧
  length (openSubscriptions "dblclick" w) = changesCount actions.
Proof.
  unfold live. rewrite bind_run.
  destruct (constructor (initialWorld heap)) as [[[]|e] w0] eqn:Hnew; [|discriminate].
  intros Hrest. apply forEach_step_subscriptions in Hrest.
  assert (subscriptions w0 = []) as Hnone.
  { change (subscriptions w0) with (subscriptions (Returns (), w0).2).
    rewrite <- Hnew. apply sameSubscriptions_constructor. }
  unfold openSubscriptions in *. rewrite Hnone in Hrest. exact Hrest.
Qed.

(** C2, at two changes: after the host has changed an input twice, the
    directive holds two open click subscriptions and two open double-click
    subscriptions, and one delivered click is emitted twice; [ngOnInit]
    alone subscribes to nothing. *)
Theorem ngOnChanges_subscribes_on_every_call :
  let life :=
    [ SetInput (inGridSize (Some 60%float));
      NgOnChanges {[ "gridSize" := exampleChange ]};
      NgOnInit;
      SetInput (inGridSize (Some 80%float));
      NgOnChanges {[ "gridSize" := nextChange ]} ] in
  let w := (live life (initialWorld exampleHeap)).2 in
  raised (live life (initialWorld exampleHeap)) = false ∧
  openSubscriptions "clusterclick" w = [clickSubscription; clickSubscription] ∧
  openSubscriptions "dblclick" w = [doubleClickSubscription; doubleClickSubscription] ∧
  appended (deliver "clusterclick" exampleCluster) w
    = [ClusterClickEmit (clusterClickEvent exampleCluster);
       ClusterClickEmit (clusterClickEvent exampleCluster)] ∧
  subscriptions (live [NgOnInit] (initialWorld exampleHeap)).2 = [].
Proof. vm_compute. repeat split. Qed.

(** ** Destruction *)

Lemma ngOnDestroy_run (w : World) :
  ngOnDestroy w = (Returns tt, set_log (log w ++ [Manager clearMarkers]) w).
Proof. reflexivity. Qed.

(** C4, at a click after destruction: [ngOnDestroy] calls [clearMarkers]
    once and leaves every subscription open, so a click delivered afterwards
    is still emitted. *)
Theorem ngOnDestroy_releases_no_subscription :
  let before :=
    (live [ NgOnChanges {[ "gridSize" := exampleChange ]}; NgOnInit ]
          (initialWorld exampleHeap)).2 in
  let after := (ngOnDestroy before).2 in
  appended ngOnDestroy before = [Manager clearMarkers] ∧
  _observableSubscriptions (this after) = [0; 1] ∧
  subscriptions after = [clickSubscription; doubleClickSubscription] ∧
  openSubscriptions "clusterclick" after = [clickSubscription] ∧
  appended (step (Deliver "clusterclick" exampleCluster)) after
    = [ClusterClickEmit (clusterClickEvent exampleCluster)].
Proof. vm_compute. repeat split. Qed.

(** ** The default of openInfoWindow *)

Lemma sameFlag_live (actions : list Action) :
  Forall (λ a, setsOpenInfoWindow a = false) actions → keeps sameFlag (live actions).
Proof.
  intros Hnever. unfold live. apply keeps_bind; [eauto with frames| |intros _].
  - apply sameFlag_constructor.
  - apply keeps_forEach; [eauto with frames..|].
    intros a Ha. apply sameFlag_step. intros v ->.
    rewrite Forall_forall in Hnever. by specialize (Hnever _ Ha).
Qed.

(** The default of the flag: in every life of a directive in which the host
    never writes the [openInfoWindow] input, the flag is true, and the click
    observer, whenever it is run, opens each attached info window. *)
Lemma openInfoWindow_is_true_unless_set (heap : gmap nat AgmInfoWindow)
    (actions : list Action) (cluster : Cluster) :
  Forall (λ a, setsOpenInfoWindow a = false) actions →
  openInfoWindow (this (live actions (initialWorld heap)).2) = true ∧
  ∀ ref, ref ∈ infoWindow (this (live actions (initialWorld heap)).2) →
         InfoWindowOpen ref
         ∈ appended (onClusterClick cluster) (live actions (initialWorld heap)).2.
Proof.
  intros Hnever.
  pose proof (sameFlag_live actions Hnever (initialWorld heap)) as Hflag.
  unfold sameFlag in Hflag. simpl in Hflag. split; [exact Hflag|].
  intros ref Href. rewrite appended_onClusterClick, Hflag.
  apply elem_of_app. left. by apply list_elem_of_fmap_2.
Qed.

(** ** The theorems at concrete directives *)

(** The guard attaches a single projected info window to the directive. *)
Example handleInfoWindowUpdate_attaches_one :
  handleInfoWindowUpdate (projected exampleHeap [7])
  = (Returns tt,
     set_infoWindows {[ 7 := {| hostMarker := Some ThisCluster |} ]}
                     (projected exampleHeap [7])).
Proof. reflexivity. Qed.

Lemma handleInfoWindowUpdate_raises_iff_more_than_one_witness :
  (length (infoWindow (this (projected exampleHeap [7]))) ≤ 1 ∧
   raised (handleInfoWindowUpdate (projected exampleHeap [7])) = false) ∧
  (2 ≤ length (infoWindow (this (projected crowdedHeap [7; 8]))) ∧
   raised (handleInfoWindowUpdate (projected crowdedHeap [7; 8])) = true).
Proof.
  split; split.
  - simpl. lia.
  - apply (proj1 (handleInfoWindowUpdate_raises_iff_more_than_one
                    (projected exampleHeap [7]))).
    simpl. lia.
  - simpl. lia.
  - apply (proj2 (handleInfoWindowUpdate_raises_iff_more_than_one
                    (projected crowdedHeap [7; 8]))).
    simpl. lia.
Defined.

Lemma handleInfoWindowUpdate_raise_assigns_nothing_witness :
  raised (handleInfoWindowUpdate (projected crowdedHeap [7; 8])) = true ∧
  hostMarker <$> infoWindows (handleInfoWindowUpdate (projected crowdedHeap [7; 8])).2 !! 7
    = Some (Some (OtherHost 3)) ∧
  hostMarker <$> infoWindows (handleInfoWindowUpdate (projected crowdedHeap [7; 8])).2 !! 8
    = Some None.
Proof.
  split; [reflexivity|]. split.
  - rewrite (handleInfoWindowUpdate_raise_assigns_nothing
               (projected crowdedHeap [7; 8]) eq_refl 7).
    reflexivity.
  - rewrite (handleInfoWindowUpdate_raise_assigns_nothing
               (projected crowdedHeap [7; 8]) eq_refl 8).
    reflexivity.
Defined.



Lemma only_ngOnInit_calls_init_witness :
  NgOnDestroy ≠ NgOnInit ∧
  initCalls (log (step NgOnDestroy (step NgOnInit (projected exampleHeap [7])).2).2)
  = initCalls (log (step NgOnInit (projected exampleHeap [7])).2).
Proof.
  split; [discriminate|].
  apply (proj1 (proj2 (proj2 only_ngOnInit_calls_init))). discriminate.
Defined.

Lemma openInfoWindow_is_true_unless_set_witness :
  Forall (λ a, setsOpenInfoWindow a = false)
         [ ContentChanges [7]; SetInput (inGridSize (Some 60%float));
           NgOnChanges {[ "gridSize" := exampleChange ]}; NgOnInit ] ∧
  openInfoWindow
    (this (live [ ContentChanges [7]; SetInput (inGridSize (Some 60%float));
                  NgOnChanges {[ "gridSize" := exampleChange ]}; NgOnInit ]
                (initialWorld exampleHeap)).2) = true ∧
  InfoWindowOpen 7
  ∈ appended (onClusterClick exampleCluster)
      (live [ ContentChanges [7]; SetInput (inGridSize (Some 60%float));
              NgOnChanges {[ "gridSize" := exampleChange ]}; NgOnInit ]
            (initialWorld exampleHeap)).2.
Proof.
  assert (Forall (λ a, setsOpenInfoWindow a = false)
            [ ContentChanges [7]; SetInput (inGridSize (Some 60%float));
              NgOnChanges {[ "gridSize" := exampleChange ]}; NgOnInit ]) as Hnever
    by (repeat constructor).
  split; [exact Hnever|].
  destruct (openInfoWindow_is_true_unless_set exampleHeap _ exampleCluster Hnever)
    as [Hflag Hopens].
  split; [exact Hflag|]. apply Hopens. vm_compute. left.
Defined.

(** * Further properties of the directive *)

(** ** More frames *)

Lemma sameObservers_refl w : sameObservers w w.
Proof. done. Qed.
Lemma sameObservers_trans a b c : sameObservers a b → sameObservers b c → sameObservers a c.
Proof. unfold sameObservers. congruence. Qed.
Lemma sameHeap_refl w : sameHeap w w.
Proof. done. Qed.
Lemma sameHeap_trans a b c : sameHeap a b → sameHeap b c → sameHeap a c.
Proof. unfold sameHeap. congruence. Qed.
Lemma sameProjection_refl w : sameProjection w w.
Proof. done. Qed.
Lemma sameProjection_trans a b c :
  sameProjection a b → sameProjection b c → sameProjection a c.
Proof. unfold sameProjection. congruence. Qed.
Lemma sameInputs_refl w : sameInputs w w.
Proof. done. Qed.
Lemma sameInputs_trans a b c : sameInputs a b → sameInputs b c → sameInputs a c.
Proof. unfold sameInputs. intros [] []. split; congruence. Qed.
Lemma sameHandles_refl w : sameHandles w w.
Proof. done. Qed.
Lemma sameHandles_trans a b c : sameHandles a b → sameHandles b c → sameHandles a c.
Proof. unfold sameHandles. congruence. Qed.

#[local] Hint Resolve sameObservers_refl sameObservers_trans sameHeap_refl
  sameHeap_trans sameProjection_refl sameProjection_trans sameInputs_refl
  sameInputs_trans sameHandles_refl sameHandles_trans : frames.

(** Walks a method of the directive down to its primitive state changes,
    through [subscribe] and through the observers. *)
Ltac walk :=
  unfold ngOnChanges, ngOnInit, ngOnDestroy, contentChanges, deliver,
    _addEventListeners, newClusterEventObservable, handleInfoWindowUpdate,
    callWithThis, assignHostMarker, push, perform;
  repeat first
    [ solve [eauto with frames]
    | apply keeps_ret
    | apply keeps_throw
    | apply keeps_gets
    | apply keeps_bind; [ .. | intros ? ]
    | apply keeps_when
    | apply keeps_forEach; [ .. | intros ? _ ]
    | match goal with
      | |- keeps _ (subscribe ?s _) => destruct s; unfold subscribe
      | |- keeps _ (runObserver ?o _) =>
          destruct o; unfold runObserver, onClusterClick, onDoubleClick, perform
      end
    | apply keeps_modify; [ intros ? ]
    | solve [hnf; reflexivity]
    | solve [split; reflexivity] ].

Lemma sameObservers_step (a : Action) : keeps sameObservers (step a).
Proof. destruct a; simpl; walk. Qed.

Lemma sameHeap_step (a : Action) :
  isContentChanges a = false → keeps sameHeap (step a).
Proof. destruct a; simpl; try discriminate; intros _; walk. Qed.

Lemma sameProjection_step (a : Action) :
  isContentChanges a = false → keeps sameProjection (step a).
Proof.
  destruct a as [i| | | | |]; simpl; try discriminate; intros _; try walk.
  destruct i; walk.
Qed.

Lemma sameInputs_step (a : Action) :
  isSetInput a = false → keeps sameInputs (step a).
Proof. destruct a; simpl; try discriminate; intros _; walk. Qed.

Lemma sameHandles_step (a : Action) :
  isNgOnChanges a = false → keeps sameHandles (step a).
Proof.
  destruct a as [i| | | | |]; simpl; try discriminate; intros _; try walk.
  destruct i; walk.
Qed.

Lemma sameProjection_handleInfoWindowUpdate : keeps sameProjection handleInfoWindowUpdate.
Proof. walk. Qed.

Lemma sameObservers_handleInfoWindowUpdate : keeps sameObservers handleInfoWindowUpdate.
Proof. walk. Qed.

(** X1: no lifecycle hook and no observer writes the directive's inputs:
    after anything but a write of the host, the eight options and
    [openInfoWindow] are what they were. *)
Theorem directive_never_writes_its_inputs (a : Action) (w : World) :
  isSetInput a = false →
  options (this (step a w).2) = options (this w) ∧
  openInfoWindow (this (step a w).2) = openInfoWindow (this w).
Proof. intros Ha. by apply sameInputs_step. Qed.

(** X2: only a content change touches the projected info windows: after any
    other action, every info-window object (so every [hostMarker]) and the
    query list are what they were. *)
Theorem only_content_changes_touch_info_windows (a : Action) (w : World) :
  isContentChanges a = false →
  infoWindows (step a w).2 = infoWindows w ∧
  infoWindow (this (step a w).2) = infoWindow (this w).
Proof.
  intros Ha. split.
  - by apply sameHeap_step.
  - by apply sameProjection_step.
Qed.

(** ** Construction *)

(** X3: constructing a directive whose query list is still empty never
    raises, calls nothing on the manager, leaves every info-window object
    alone, and registers one observer of the query list's changes. *)
Theorem constructor_on_empty_projection (w : World) :
  infoWindow (this w) = [] →
  constructor w = (Returns tt, set_changesObservers (S (changesObservers w)) w).
Proof.
  intros Hempty. unfold constructor. rewrite bind_run, handleInfoWindowUpdate_run.
  rewrite Hempty. simpl. by rewrite set_infoWindows_same.
Qed.

(** ** Attaching info windows *)

Lemma lookup_assignAll (h : Host) (refs : list nat) (heap : gmap nat AgmInfoWindow)
    (ref : nat) :
  assignAll h refs heap !! ref =
  if decide (ref ∈ refs)
  then (λ _, {| hostMarker := Some h |}) <$> heap !! ref
  else heap !! ref.
Proof.
  unfold assignAll. revert heap.
  induction refs as [|r refs IH]; intros heap; cbn [foldl].
  - rewrite decide_False by apply not_elem_of_nil. reflexivity.
  - rewrite IH. destruct (decide (r = ref)) as [->|Hne].
    + rewrite lookup_alter_eq.
      rewrite (decide_True (P := ref ∈ ref :: refs)) by left.
      destruct (decide (ref ∈ refs)); [|reflexivity].
      by destruct (heap !! ref).
    + rewrite lookup_alter_ne by done.
      destruct (decide (ref ∈ refs)) as [Hin|Hout].
      * rewrite decide_True by (by right). reflexivity.
      * rewrite decide_False; [reflexivity|].
        intros [?|?]%elem_of_cons; congruence.
Qed.

(** X4: when the guard lets a call through, the projected info window gets
    this directive as its [hostMarker], every other info-window object is
    untouched, and neither the directive's fields nor the log change. *)
Theorem handleInfoWindowUpdate_attaches_projected (w : World) :
  length (infoWindow (this w)) ≤ 1 →
  (∀ ref, ref ∈ infoWindow (this w) → is_Some (infoWindows w !! ref) →
          infoWindows (handleInfoWindowUpdate w).2 !! ref
          = Some {| hostMarker := Some ThisCluster |}) ∧
  (∀ ref, ref ∉ infoWindow (this w) →
          infoWindows (handleInfoWindowUpdate w).2 !! ref = infoWindows w !! ref) ∧
  this (handleInfoWindowUpdate w).2 = this w ∧
  log (handleInfoWindowUpdate w).2 = log w.
Proof.
  intros Hlen. rewrite handleInfoWindowUpdate_run.
  rewrite bool_decide_eq_false_2 by lia. simpl.
  split; [|split; [|done]].
  - intros ref Hin [iw Hiw]. rewrite lookup_assignAll, decide_True by done.
    by rewrite Hiw.
  - intros ref Hout. by rewrite lookup_assignAll, decide_False.
Qed.

Lemma assignAll_twice (h : Host) (refs : list nat) (heap : gmap nat AgmInfoWindow) :
  assignAll h refs (assignAll h refs heap) = assignAll h refs heap.
Proof.
  apply map_eq. intros ref. rewrite !lookup_assignAll.
  destruct (decide (ref ∈ refs)); [|reflexivity].
  by destruct (heap !! ref).
Qed.

(** X5: the guard is idempotent: running [handleInfoWindowUpdate] a second
    time, as a repeated change notification does, ends in the same outcome
    and the same world as running it once. *)
Theorem handleInfoWindowUpdate_idempotent (w : World) :
  (handleInfoWindowUpdate;; handleInfoWindowUpdate) w = handleInfoWindowUpdate w.
Proof.
  rewrite bind_run, handleInfoWindowUpdate_run.
  destruct (bool_decide (1 < length (infoWindow (this w)))) eqn:Hmany;
    [reflexivity|].
  rewrite handleInfoWindowUpdate_run. simpl. rewrite Hmany.
  by rewrite assignAll_twice.
Qed.

(** ** Option changes with any number of keys *)

Lemma elem_of_optional_call (b : bool) (x y : Effect) :
  x ∈ (if b then [y] else []) ↔ b = true ∧ x = y.
Proof.
  destruct b.
  - rewrite list_elem_of_singleton. split; [by intros -> | by intros [_ ->]].
  - split; [by intros ?%not_elem_of_nil | by intros []].
Qed.

Lemma defined_is_Some {A} (v : option A) : defined v = true ↔ is_Some v.
Proof.
  destruct v; simpl.
  - split; [by eexists | done].
  - split; [done | by intros []].
Qed.

(** X6: whatever else has changed, [ngOnChanges] calls the setter of an
    option exactly when the changes map has that option's key. *)
Theorem ngOnChanges_calls_setter_iff_key_changed (key : string)
    (setter : ClusterOptions → ManagerCall)
    (changes : gmap string SimpleChange) (w : World) :
  setterOf key = Some setter →
  Manager (setter (options (this w)))
    ∈ configurationCalls (appended (ngOnChanges changes) w)
  ↔ is_Some (changes !! key).
Proof.
  intros Hkey. rewrite configurationCalls_ngOnChanges.
  unfold settersFor. rewrite !elem_of_app, !elem_of_optional_call.
  rewrite !defined_is_Some. unfold setterOf in Hkey.
  repeat case_decide; simplify_eq; intuition congruence.
Qed.

(** X7: a changes map without any of the eight option keys (an empty map,
    or a change of [openInfoWindow] alone) calls no setter; the call still
    asks the manager for both event streams. *)
Theorem ngOnChanges_without_option_key (changes : gmap string SimpleChange) (w : World) :
  Forall (λ key, changes !! key = None) optionKeys →
  appended (ngOnChanges changes) w
  = [ Manager (createClusterEventObservable "clusterclick");
      Manager (createClusterEventObservable "dblclick") ].
Proof.
  intros Hnone. rewrite appended_ngOnChanges. unfold settersFor.
  unfold optionKeys in Hnone. rewrite !Forall_cons in Hnone.
  destruct Hnone as (-> & -> & -> & -> & -> & -> & -> & -> & _).
  reflexivity.
Qed.

Lemma optional_call_sublist (b : bool) (y : Effect) :
  (if b then [y] else []) `sublist_of` [y].
Proof. destruct b; [reflexivity | apply sublist_nil_l]. Qed.

(** X8: the setter calls of one [ngOnChanges] always come in the order of
    the source, whatever the changes map: they are a subsequence of
    gridSize, maxZoom, styles, zoomOnClick, averageCenter,
    minimumClusterSize, styles, imagePath, imageExtension; so at most nine
    calls are made. *)
Theorem ngOnChanges_setters_in_source_order (changes : gmap string SimpleChange)
    (w : World) :
  configurationCalls (appended (ngOnChanges changes) w)
    `sublist_of` setterSequence (options (this w)) ∧
  length (configurationCalls (appended (ngOnChanges changes) w)) ≤ 9.
Proof.
  assert (configurationCalls (appended (ngOnChanges changes) w)
            `sublist_of` setterSequence (options (this w))) as Hsub.
  { rewrite configurationCalls_ngOnChanges. unfold settersFor, setterSequence.
    repeat (apply (sublist_app _ [_]); [apply optional_call_sublist|]).
    apply optional_call_sublist. }
  split; [exact Hsub|]. apply sublist_length in Hsub. exact Hsub.
Qed.

(** ** Which lives raise *)

Lemma raised_bind {A B} (m : M A) (f : A → M B) (w : World) :
  raised ((m ≫= f) w) =
  match m w with
  | (Returns a, w') => raised (f a w')
  | (Throws _, _) => true
  end.
Proof. rewrite bind_run. by destruct (m w) as [[a|e] w']. Qed.

Lemma forEach_returns {A} (P : World → Prop) (l : list A) (f : A → M unit) (w : World) :
  (∀ x w, P w → raised (f x w) = false ∧ P (f x w).2) →
  P w → raised (forEach l f w) = false ∧ P (forEach l f w).2.
Proof.
  intros Hf. revert w. induction l as [|x l IH]; intros w Hw; simpl.
  - done.
  - destruct (Hf x w Hw) as [Hret Hnext].
    rewrite raised_bind, bind_run.
    destruct (f x w) as [[[]|e] w']; [|discriminate].
    by apply IH.
Qed.

Lemma runObserver_returns (o : Observer) (cluster : Cluster) (w : World) :
  raised (runObserver o cluster w) = false.
Proof. destruct o; simpl; [by rewrite onClusterClick_run | reflexivity]. Qed.

Lemma contentChanges_raised (refs : list nat) (w : World) :
  0 < changesObservers w →
  raised (contentChanges refs w) = bool_decide (1 < length refs).
Proof.
  intros Hobserved. unfold contentChanges.
  rewrite raised_bind. simpl. rewrite raised_bind. simpl.
  destruct (changesObservers w) as [|n]; [lia|].
  destruct (bool_decide (1 < length refs)) eqn:Hmany.
  - simpl. rewrite raised_bind, handleInfoWindowUpdate_run. simpl.
    by rewrite Hmany.
  - apply (forEach_returns (λ w', infoWindow (this w') = refs)); [|done].
    intros [] w' Hw'. split.
    + rewrite handleInfoWindowUpdate_run, Hw', Hmany. reflexivity.
    + rewrite <- Hw'. apply sameProjection_handleInfoWindowUpdate.
Qed.

Lemma step_raised (a : Action) (w : World) :
  0 < changesObservers w → raised (step a w) = projectsTooMany a.
Proof.
  intros Hobserved. destruct a as [i|changes| | |refs|name cluster]; simpl.
  - reflexivity.
  - by rewrite ngOnChanges_run, addEventListeners_run.
  - by rewrite ngOnInit_run.
  - reflexivity.
  - by apply contentChanges_raised.
  - unfold deliver. rewrite raised_bind. simpl.
    apply (forEach_returns (λ _, True)); [|done].
    intros s w' _. split; [apply runObserver_returns | done].
Qed.

Lemma forEach_step_raised (actions : list Action) (w : World) :
  0 < changesObservers w →
  raised (forEach actions step w) = existsb projectsTooMany actions.
Proof.
  revert w. induction actions as [|a actions IH]; intros w Hobserved; simpl.
  - reflexivity.
  - rewrite raised_bind.
    pose proof (step_raised a w Hobserved) as Hstep.
    pose proof (sameObservers_step a w) as Hsame. unfold sameObservers in Hsame.
    destruct (step a w) as [[[]|e] w']; simpl in *; rewrite <- Hstep; simpl.
    + apply IH. lia.
    + reflexivity.
Qed.

(** X9: the info-window guard is the only thing that ends a directive's
    life with an exception: a life raises exactly when one of its content
    changes projects more than one info window. *)
Theorem live_raises_iff_too_many_info_windows (heap : gmap nat AgmInfoWindow)
    (actions : list Action) :
  raised (live actions (initialWorld heap)) = existsb projectsTooMany actions.
Proof.
  unfold live. rewrite raised_bind.
  rewrite constructor_on_empty_projection by reflexivity.
  apply forEach_step_raised. simpl. lia.
Qed.

(** ** The bookkeeping of subscriptions *)

Lemma join_replicate_S {A} (n : nat) (l : list A) :
  mjoin (replicate (S n) l) = l ++ mjoin (replicate n l).
Proof. reflexivity. Qed.

Lemma join_replicate_end {A} (n : nat) (l : list A) :
  mjoin (replicate n l) ++ l = mjoin (replicate (S n) l).
Proof.
  induction n as [|n IH]; simpl.
  - by rewrite app_nil_r.
  - rewrite <- app_assoc. f_equal. exact IH.
Qed.

Lemma forEach_invariant {A} (P : World → Prop) (l : list A) (f : A → M unit) (w : World) :
  (∀ x w, P w → P (f x w).2) → P w → P (forEach l f w).2.
Proof.
  intros Hf. revert w. induction l as [|x l IH]; intros w Hw; simpl.
  - exact Hw.
  - rewrite bind_run. specialize (Hf x w Hw).
    destruct (f x w) as [[[]|e] w']; simpl in *; [by apply IH | exact Hf].
Qed.

Lemma subscriptions_ngOnChanges (changes : gmap string SimpleChange) (w : World) :
  subscriptions (ngOnChanges changes w).2 = subscriptions w ++ listeners ∧
  _observableSubscriptions (this (ngOnChanges changes w).2)
  = _observableSubscriptions (this w)
    ++ [length (subscriptions w); S (length (subscriptions w))].
Proof.
  rewrite ngOnChanges_run, addEventListeners_run. simpl.
  rewrite <- !app_assoc, length_app. simpl.
  by rewrite Nat.add_1_r.
Qed.

Lemma wellListed_ngOnChanges (changes : gmap string SimpleChange) (w : World) :
  wellListed w → wellListed (ngOnChanges changes w).2.
Proof.
  intros (n & Hsubs & Hrefs). exists (S n).
  destruct (subscriptions_ngOnChanges changes w) as [-> ->].
  rewrite Hrefs. split.
  - rewrite Hsubs. apply join_replicate_end.
  - rewrite length_app.
    change (length listeners) with 2.
    rewrite seq_app. reflexivity.
Qed.

Lemma wellListed_step (a : Action) (w : World) :
  wellListed w → wellListed (step a w).2.
Proof.
  destruct (isNgOnChanges a) eqn:Hchange.
  - destruct a; try discriminate. apply wellListed_ngOnChanges.
  - intros (n & Hsubs & Hrefs). exists n.
    assert (subscriptions (step a w).2 = subscriptions w) as ->.
    { apply sameSubscriptions_step. intros changes ->. discriminate. }
    assert (_observableSubscriptions (this (step a w).2)
            = _observableSubscriptions (this w)) as ->.
    { by apply sameHandles_step. }
    done.
Qed.

Lemma wellListed_live (heap : gmap nat AgmInfoWindow) (actions : list Action) :
  wellListed (live actions (initialWorld heap)).2.
Proof.
  unfold live. rewrite bind_run.
  rewrite constructor_on_empty_projection by reflexivity.
  apply forEach_invariant; [apply wellListed_step|].
  by exists 0.
Qed.


(** ** Delivering events *)

Lemma forEach_step_listeners (actions : list Action) (w0 w : World) :
  forEach actions step w0 = (Returns tt, w) →
  subscriptions w
  = subscriptions w0 ++ mjoin (replicate (changesCount actions) listeners).
Proof.
  revert w0. induction actions as [|a actions IH]; intros w0; simpl.
  - intros [= ->]. unfold changesCount. simpl. by rewrite app_nil_r.
  - rewrite bind_run. destruct (step a w0) as [[[]|e] w1] eqn:Hstep; [|discriminate].
    intros Hrest. rewrite (IH _ Hrest).
    assert (w1 = (step a w0).2) as -> by (by rewrite Hstep).
    unfold changesCount. rewrite filter_cons.
    destruct (decide (isNgOnChanges a = true)) as [Hchange|Hother].
    + destruct a as [|changes| | | |]; try discriminate.
      change (step (NgOnChanges changes) w0) with (ngOnChanges changes w0).
      rewrite ngOnChanges_run, addEventListeners_run. simpl.
      by rewrite <- !app_assoc.
    + assert (subscriptions (step a w0).2 = subscriptions w0) as ->; [|done].
      apply sameSubscriptions_step. intros changes ->. by apply Hother.
Qed.

Lemma live_listeners (heap : gmap nat AgmInfoWindow) (actions : list Action) (w : World) :
  live actions (initialWorld heap) = (Returns tt, w) →
  subscriptions w = mjoin (replicate (changesCount actions) listeners).
Proof.
  unfold live. rewrite bind_run.
  rewrite constructor_on_empty_projection by reflexivity.
  intros Hrest. by apply forEach_step_listeners in Hrest.
Qed.

Lemma filter_listeners_click (n : nat) :
  filter (λ s, listensTo "clusterclick" s = true) (mjoin (replicate n listeners))
  = replicate n clickSubscription.
Proof.
  induction n as [|n IH]; [reflexivity|].
  rewrite join_replicate_S, filter_app, IH. reflexivity.
Qed.

Lemma filter_listeners_doubleClick (n : nat) :
  filter (λ s, listensTo "dblclick" s = true) (mjoin (replicate n listeners))
  = replicate n doubleClickSubscription.
Proof.
  induction n as [|n IH]; [reflexivity|].
  rewrite join_replicate_S, filter_app, IH. reflexivity.
Qed.

Lemma filter_listeners_other (name : string) (n : nat) :
  name ≠ "clusterclick" → name ≠ "dblclick" →
  filter (λ s, listensTo name s = true) (mjoin (replicate n listeners)) = [].
Proof.
  intros Hclick Hdouble. induction n as [|n IH]; [reflexivity|].
  rewrite join_replicate_S, filter_app, IH.
  unfold listeners. rewrite !filter_cons, filter_nil.
  unfold listensTo. simpl.
  rewrite !bool_decide_eq_false_2 by congruence. reflexivity.
Qed.

Lemma forEach_clicks (n : nat) (cluster : Cluster) (w : World) :
  forEach (replicate n clickSubscription) (λ s, runObserver (next s) cluster) w
  = (Returns tt,
     set_log (log w ++ mjoin (replicate n (clickEffects cluster (this w)))) w).
Proof.
  revert w. induction n as [|n IH]; intros w.
  - simpl. by rewrite app_nil_r, set_log_same.
  - cbn [replicate forEach]. rewrite bind_run.
    change (runObserver (next clickSubscription) cluster w)
      with (onClusterClick cluster w).
    rewrite onClusterClick_run, IH. simpl.
    unfold clickEffects. simpl. by rewrite <- !app_assoc.
Qed.

Lemma forEach_doubleClicks (n : nat) (cluster : Cluster) (w : World) :
  forEach (replicate n doubleClickSubscription) (λ s, runObserver (next s) cluster) w
  = (Returns tt, set_log (log w ++ replicate n (ConsoleLog cluster)) w).
Proof.
  revert w. induction n as [|n IH]; intros w.
  - simpl. by rewrite app_nil_r, set_log_same.
  - cbn [replicate forEach]. rewrite bind_run.
    change (runObserver (next doubleClickSubscription) cluster w)
      with (perform (ConsoleLog cluster) w).
    rewrite perform_run, IH. simpl. by rewrite <- app_assoc.
Qed.

(** X11: in a completed life, a cluster click delivered by the manager runs
    the click observer once per earlier [ngOnChanges] call: the log grows by
    that many copies of the observer's effects, so the event is emitted that
    many times (never, if [ngOnChanges] was not called), and nothing else
    in the world changes. *)
Theorem delivered_click_emits_once_per_ngOnChanges (heap : gmap nat AgmInfoWindow)
    (actions : list Action) (w : World) (cluster : Cluster) :
  live actions (initialWorld heap) = (Returns tt, w) →
  deliver "clusterclick" cluster w
  = (Returns tt,
     set_log (log w ++ mjoin (replicate (changesCount actions)
                                        (clickEffects cluster (this w)))) w).
Proof.
  intros Hlife. unfold deliver. rewrite bind_run. simpl.
  rewrite (live_listeners _ _ _ Hlife), filter_listeners_click.
  apply forEach_clicks.
Qed.

(** X12: in a completed life, a delivered double click is only written to
    the console, once per earlier [ngOnChanges] call: no event is emitted,
    no info window is opened, no call is made on the manager. *)
Theorem delivered_double_click_only_logs (heap : gmap nat AgmInfoWindow)
    (actions : list Action) (w : World) (cluster : Cluster) :
  live actions (initialWorld heap) = (Returns tt, w) →
  deliver "dblclick" cluster w
  = (Returns tt,
     set_log (log w ++ replicate (changesCount actions) (ConsoleLog cluster)) w).
Proof.
  intros Hlife. unfold deliver. rewrite bind_run. simpl.
  rewrite (live_listeners _ _ _ Hlife), filter_listeners_doubleClick.
  apply forEach_doubleClicks.
Qed.

(** X13: the directive listens on no other stream: in every life, an event
    delivered under any name but 'clusterclick' and 'dblclick' changes
    nothing. *)
Theorem delivery_on_other_streams_is_ignored (heap : gmap nat AgmInfoWindow)
    (actions : list Action) (name : string) (cluster : Cluster) :
  name ≠ "clusterclick" → name ≠ "dblclick" →
  deliver name cluster (live actions (initialWorld heap)).2
  = (Returns tt, (live actions (initialWorld heap)).2).
Proof.
  intros Hclick Hdouble.
  destruct (wellListed_live heap actions) as (n & Hsubs & _).
  unfold deliver. rewrite bind_run. simpl.
  rewrite Hsubs, filter_listeners_other by done. reflexivity.
Qed.

(** ** The further properties at concrete directives *)

Lemma directive_never_writes_its_inputs_witness :
  isSetInput (NgOnChanges {[ "gridSize" := nextChange ]}) = false ∧
  options (this (step (NgOnChanges {[ "gridSize" := nextChange ]}) afterExampleLife).2)
    = options (this afterExampleLife) ∧
  openInfoWindow
    (this (step (NgOnChanges {[ "gridSize" := nextChange ]}) afterExampleLife).2)
    = openInfoWindow (this afterExampleLife).
Proof.
  split; [reflexivity|].
  apply (directive_never_writes_its_inputs
           (NgOnChanges {[ "gridSize" := nextChange ]}) afterExampleLife).
  reflexivity.
Defined.

Lemma only_content_changes_touch_info_windows_witness :
  isContentChanges (Deliver "clusterclick" exampleCluster) = false ∧
  infoWindows (step (Deliver "clusterclick" exampleCluster) afterExampleLife).2
    = infoWindows afterExampleLife ∧
  infoWindow (this (step (Deliver "clusterclick" exampleCluster) afterExampleLife).2)
    = infoWindow (this afterExampleLife).
Proof.
  split; [reflexivity|].
  apply (only_content_changes_touch_info_windows
           (Deliver "clusterclick" exampleCluster) afterExampleLife).
  reflexivity.
Defined.

Lemma constructor_on_empty_projection_witness :
  infoWindow (this (initialWorld crowdedHeap)) = [] ∧
  constructor (initialWorld crowdedHeap)
  = (Returns tt, set_changesObservers 1 (initialWorld crowdedHeap)).
Proof.
  split; [reflexivity|].
  apply (constructor_on_empty_projection (initialWorld crowdedHeap)). reflexivity.
Defined.

Lemma handleInfoWindowUpdate_attaches_projected_witness :
  length (infoWindow (this (projected crowdedHeap [8]))) ≤ 1 ∧
  infoWindows (handleInfoWindowUpdate (projected crowdedHeap [8])).2 !! 8
    = Some {| hostMarker := Some ThisCluster |} ∧
  infoWindows (handleInfoWindowUpdate (projected crowdedHeap [8])).2 !! 7
    = Some {| hostMarker := Some (OtherHost 3) |}.
Proof.
  assert (length (infoWindow (this (projected crowdedHeap [8]))) ≤ 1) as Hone
    by (simpl; lia).
  split; [exact Hone|].
  destruct (handleInfoWindowUpdate_attaches_projected (projected crowdedHeap [8]) Hone)
    as (Hin & Hout & _).
  split.
  - apply Hin; [simpl; left | by eexists].
  - rewrite Hout; [reflexivity|].
    simpl. intros Hin7. apply list_elem_of_singleton in Hin7. discriminate.
Defined.

Lemma ngOnChanges_calls_setter_iff_key_changed_witness :
  setterOf "maxZoom" = Some setMaxZoom ∧
  (Manager (setMaxZoom (options (this afterExampleLife)))
     ∈ configurationCalls
         (appended (ngOnChanges {[ "gridSize" := nextChange; "maxZoom" := exampleChange ]})
                   afterExampleLife)
   ↔ is_Some (({[ "gridSize" := nextChange; "maxZoom" := exampleChange ]}
                 : gmap string SimpleChange) !! "maxZoom")).
Proof.
  split; [reflexivity|].
  apply (ngOnChanges_calls_setter_iff_key_changed "maxZoom" setMaxZoom).
  reflexivity.
Defined.

Lemma ngOnChanges_without_option_key_witness :
  Forall (λ key, ({[ "openInfoWindow" := exampleChange ]}
                    : gmap string SimpleChange) !! key = None) optionKeys ∧
  appended (ngOnChanges {[ "openInfoWindow" := exampleChange ]}) afterExampleLife
  = [ Manager (createClusterEventObservable "clusterclick");
      Manager (createClusterEventObservable "dblclick") ].
Proof.
  assert (Forall (λ key, ({[ "openInfoWindow" := exampleChange ]}
                            : gmap string SimpleChange) !! key = None) optionKeys)
    as Hnone by (repeat constructor).
  split; [exact Hnone|].
  exact (ngOnChanges_without_option_key _ afterExampleLife Hnone).
Defined.


Lemma delivered_click_emits_once_per_ngOnChanges_witness :
  live exampleLife (initialWorld exampleHeap) = (Returns tt, afterExampleLife) ∧
  deliver "clusterclick" exampleCluster afterExampleLife
  = (Returns tt,
     set_log (log afterExampleLife
              ++ mjoin (replicate (changesCount exampleLife)
                                  (clickEffects exampleCluster (this afterExampleLife))))
             afterExampleLife).
Proof.
  assert (live exampleLife (initialWorld exampleHeap) = (Returns tt, afterExampleLife))
    as Hlife by (vm_compute; reflexivity).
  split; [exact Hlife|].
  exact (delivered_click_emits_once_per_ngOnChanges _ _ _ exampleCluster Hlife).
Defined.

Lemma delivered_double_click_only_logs_witness :
  live exampleLife (initialWorld exampleHeap) = (Returns tt, afterExampleLife) ∧
  deliver "dblclick" exampleCluster afterExampleLife
  = (Returns tt,
     set_log (log afterExampleLife
              ++ replicate (changesCount exampleLife) (ConsoleLog exampleCluster))
             afterExampleLife).
Proof.
  assert (live exampleLife (initialWorld exampleHeap) = (Returns tt, afterExampleLife))
    as Hlife by (vm_compute; reflexivity).
  split; [exact Hlife|].
  exact (delivered_double_click_only_logs _ _ _ exampleCluster Hlife).
Defined.

Lemma delivery_on_other_streams_is_ignored_witness :
  "click" ≠ "clusterclick" ∧ "click" ≠ "dblclick" ∧
  deliver "click" exampleCluster (live exampleLife (initialWorld exampleHeap)).2
  = (Returns tt, (live exampleLife (initialWorld exampleHeap)).2).
Proof.
  assert ("click" ≠ "clusterclick") as Hclick by discriminate.
  assert ("click" ≠ "dblclick") as Hdouble by discriminate.
  split; [exact Hclick|]. split; [exact Hdouble|].
  exact (delivery_on_other_streams_is_ignored exampleHeap exampleLife "click"
           exampleCluster Hclick Hdouble).
Defined.

(** ** A directive without bound inputs *)

(** In a completed life without any [ngOnChanges] call, a delivered cluster
    click reaches no observer and changes nothing. *)
Lemma click_without_ngOnChanges_is_lost (heap : gmap nat AgmInfoWindow)
    (actions : list Action) (w : World) (cluster : Cluster) :
  live actions (initialWorld heap) = (Returns tt, w) →
  changesCount actions = 0 →
  deliver "clusterclick" cluster w = (Returns tt, w).
Proof.
  intros Hlife Hnone. unfold deliver. rewrite bind_run. simpl.
  by rewrite (live_listeners _ _ _ Hlife), Hnone.
Qed.

(** In a completed life with at least one [ngOnChanges] call and no write of
    the [openInfoWindow] input, a delivered cluster click opens each
    attached info window. *)
Lemma click_after_ngOnChanges_opens (heap : gmap nat AgmInfoWindow)
    (actions : list Action) (w : World) (cluster : Cluster) (ref : nat) :
  live actions (initialWorld heap) = (Returns tt, w) →
  Forall (λ a, setsOpenInfoWindow a = false) actions →
  0 < changesCount actions →
  ref ∈ infoWindow (this w) →
  InfoWindowOpen ref ∈ appended (deliver "clusterclick" cluster) w.
Proof.
  intros Hlife Hnever Hchanged Href.
  pose proof (sameFlag_live actions Hnever (initialWorld heap)) as Hflag.
  unfold sameFlag in Hflag. rewrite Hlife in Hflag. simpl in Hflag.
  assert (deliver "clusterclick" cluster w
          = (Returns tt,
             set_log (log w ++ mjoin (replicate (changesCount actions)
                                                (clickEffects cluster (this w)))) w))
    as Hdeliver.
  { unfold deliver. rewrite bind_run. simpl.
    rewrite (live_listeners _ _ _ Hlife), filter_listeners_click.
    apply forEach_clicks. }
  rewrite (appended_set_log _ _ _ (f_equal (λ r, log r.2) Hdeliver)).
  destruct (changesCount actions) as [|n]; [lia|].
  rewrite join_replicate_S. apply elem_of_app. left.
  unfold clickEffects. rewrite Hflag.
  apply elem_of_app. left. by apply list_elem_of_fmap_2.
Qed.

(** C9, at a directive without bound inputs: the host never writes
    [openInfoWindow], the flag is true and info window 7 is attached to the
    directive, yet the directive holds no subscription, and a cluster click
    the manager delivers opens nothing and emits nothing. *)
Theorem click_on_unbound_directive_opens_nothing :
  let w := (live unboundLife (initialWorld exampleHeap)).2 in
  Forall (λ a, setsOpenInfoWindow a = false) unboundLife ∧
  raised (live unboundLife (initialWorld exampleHeap)) = false ∧
  openInfoWindow (this w) = true ∧
  infoWindow (this w) = [7] ∧
  infoWindows w !! 7 = Some {| hostMarker := Some ThisCluster |} ∧
  subscriptions w = [] ∧
  appended (step (Deliver "clusterclick" exampleCluster)) w = [].
Proof.
  split; [repeat constructor|]. vm_compute. repeat split.
Qed.
